(** * Runtime duck-typing checks of [NewUser]

    A shallow embedding of [downloads/code/rtc_typing_example.py],
    [rtc_typing_example2.py] and [rtc_typing_example3.py], and the
    properties of their structural validators.

    The three files are a few lines each, so almost everything they do is
    done by the interpreter: truth testing ([not], [and], [or], [assert]),
    [hasattr], [isinstance] and [in].  Module [Py] embeds those operations
    the way Python 3 defines them, on a store of objects, so that the
    program can be read off the source line by line.

    Scope of the model.
    - Values of nine built-in types: [None], [bool], [int], [str], [tuple],
      and the mutable [list], [set], [dict] and generator objects, which live
      in the store.  The other built-in types ([float], [bytes],
      [bytearray], [range], [frozenset], class objects, ...) are outside the
      model, and nothing below is said of them.
    - Instances of user-defined classes.  A class is its namespace, a list of
      named members; a method body reads and writes the [__dict__] of its
      receiver and returns, raises, or does not finish.  Classes derive from
      [object] only and keep its default [__eq__] and [__hash__].
    - Assertions are enabled ([__debug__] is true).
    - Attribute tables list the names of the container protocol
      ([__getitem__], [__setitem__], [__iter__] and their kin), the only
      ones the program probes; other names are outside the model.
    - [User] and [save_to_database], which the repository uses and does not
      define, are parameters. *)

From stdpp Require Import base option list strings gmap.

Set Warnings "-register-all".

Open Scope string_scope.
Open Scope Z_scope.

Module Py.

(** ** Values and objects *)

Definition loc := positive.

Inductive value :=
| VNone
| VBool (b : bool)
| VInt (n : Z)
| VStr (s : string)
| VTuple (items : list value)
| VRef (l : loc).
Arguments VRef l%_positive.

Inductive exn :=
| AssertionError | AttributeError | TypeError | ValueError
| IndexError | KeyError | StopIteration | SystemError | RuntimeError
| OverflowError.

(** What running a piece of code gives: a result, an exception, or no
    answer within the step budget. *)
Inductive outcome (A : Type) :=
| Ok (a : A)
| Raise (e : exn)
| Timeout.
Arguments Ok {A} a.
Arguments Raise {A} e.
Arguments Timeout {A}.

(** The [__dict__] of an instance. *)
Definition fields := list (string * value).

(** A method body, run on the [__dict__] of its receiver. *)
Definition hook (A : Type) := fields -> outcome A * fields.

Inductive member :=
| Method (body : list value -> hook value)      (* def name(self, *args): ... *)
| GenMethod (body : hook (list value))          (* def name(self): ... yield x ... *)
| Attr (v : value).                             (* name = v, v not callable *)

Definition class := list (string * member).

Inductive object :=
| OList (items : list value)
| OSet (items : list value)
| ODict (entries : list (value * value))
| OGen (pending : list value)                   (* the values still to be yielded *)
| OInst (c : class) (d : fields).

(** Calls of the two collaborators, in the order they were made. *)
Inductive call :=
| CallUser (name categories attributes : value)
| CallSave (user_obj : value).

Record world := World { heap : gmap loc object; trace : list call }.

Definition set_heap (h : gmap loc object) (w : world) : world :=
  {| heap := h; trace := trace w |}.

(** ** Computations *)

Definition M (A : Type) := world -> outcome A * world.

Definition ret {A} (a : A) : M A := fun w => (Ok a, w).

Definition raise {A} (e : exn) : M A := fun w => (Raise e, w).

Definition bind {A B} (c : M A) (k : A -> M B) : M B :=
  fun w =>
    match c w with
    | (Ok a, w') => k a w'
    | (Raise e, w') => (Raise e, w')
    | (Timeout, w') => (Timeout, w')
    end.

Notation "x <- c ;; k" := (bind c (fun x => k))
  (at level 100, c at next level, right associativity).
Notation "c ;;; k" := (bind c (fun _ => k))
  (at level 100, right associativity).

(** A reference always points to an object in Python; the model answers
    [SystemError] for one that does not. *)
Definition deref (l : loc) : M object :=
  fun w =>
    match heap w !! l with
    | Some o => (Ok o, w)
    | None => (Raise SystemError, w)
    end.

(** Runs a method body on the instance at [l] and stores the [__dict__]
    it leaves. *)
Definition on_instance {A} (l : loc) (c : class) (d : fields) (h : hook A) : M A :=
  fun w => let '(r, d') := h d in (r, set_heap (<[l := OInst c d']> (heap w)) w).

Fixpoint assoc {A} (name : string) (ns : list (string * A)) : option A :=
  match ns with
  | [] => None
  | (k, a) :: ns' => if String.eqb name k then Some a else assoc name ns'
  end.

(** ** Truth testing: [bool(v)] *)

Definition nonempty {A} (xs : list A) : bool :=
  match xs with [] => false | _ :: _ => true end.

Definition truth (v : value) : M bool :=
  match v with
  | VNone => ret false
  | VBool b => ret b
  | VInt n => ret (negb (n =? 0))
  | VStr s => ret (negb (String.eqb s ""))
  | VTuple items => ret (nonempty items)
  | VRef l =>
      o <- deref l ;;
      match o with
      | OList items | OSet items => ret (nonempty items)
      | ODict entries => ret (nonempty entries)
      | OGen _ => ret true
      | OInst c d =>
          match assoc "__bool__" c with
          | Some (Method body) =>
              r <- on_instance l c d (body []) ;;
              match r with
              | VBool b => ret b
              | _ => raise TypeError
              end
          | Some _ => raise TypeError
          | None =>
              match assoc "__len__" c with
              | Some (Method body) =>
                  r <- on_instance l c d (body []) ;;
                  match r with
                  | VInt n =>
                      if (n <? - 2 ^ 63) || (2 ^ 63 <=? n) then raise OverflowError
                      else if n <? 0 then raise ValueError
                      else ret (negb (n =? 0))
                  | VBool b => ret b
                  | _ => raise TypeError
                  end
              | Some _ => raise TypeError
              | None => ret true
              end
          end
      end
  end.

(** ** Attribute lookup: [getattr(v, name)] and [hasattr(v, name)] *)

Inductive kind := KNone | KBool | KInt | KStr | KTuple | KList | KSet | KDict | KGen.

Definition type_attrs (k : kind) : list string :=
  match k with
  | KNone | KBool | KInt => ["__bool__"]
  | KStr | KTuple => ["__len__"; "__getitem__"; "__iter__"; "__contains__"]
  | KList | KDict =>
      ["__len__"; "__getitem__"; "__setitem__"; "__delitem__"; "__iter__";
       "__contains__"]
  | KSet => ["__len__"; "__iter__"; "__contains__"]
  | KGen => ["__iter__"; "__next__"]
  end.

Definition mem (name : string) (names : list string) : bool :=
  existsb (String.eqb name) names.

Definition type_getattr (k : kind) (name : string) : M unit :=
  if mem name (type_attrs k) then ret tt else raise AttributeError.

Definition getattr (v : value) (name : string) : M unit :=
  match v with
  | VNone => type_getattr KNone name
  | VBool _ => type_getattr KBool name
  | VInt _ => type_getattr KInt name
  | VStr _ => type_getattr KStr name
  | VTuple _ => type_getattr KTuple name
  | VRef l =>
      o <- deref l ;;
      match o with
      | OList _ => type_getattr KList name
      | OSet _ => type_getattr KSet name
      | ODict _ => type_getattr KDict name
      | OGen _ => type_getattr KGen name
      | OInst c d =>
          match assoc name c, assoc name d with
          | Some _, _ | None, Some _ => ret tt
          | None, None =>
              match assoc "__getattr__" c with
              | Some (Method body) =>
                  on_instance l c d (body [VStr name]) ;;; ret tt
              | Some _ => raise TypeError
              | None => raise AttributeError
              end
          end
      end
  end.

(** [hasattr] calls [getattr] and answers [False] on [AttributeError];
    any other exception goes through. *)
Definition hasattr (v : value) (name : string) : M bool :=
  fun w =>
    match getattr v name w with
    | (Ok _, w') => (Ok true, w')
    | (Raise AttributeError, w') => (Ok false, w')
    | (Raise e, w') => (Raise e, w')
    | (Timeout, w') => (Timeout, w')
    end.

(** [isinstance(v, str)] *)
Definition isinstance_str (v : value) : bool :=
  match v with VStr _ => true | _ => false end.

(** ** Boolean operators and [assert]

    [and] and [or] give back one of their operands; every operand below is
    a truth test or a call that returns a [bool], and in a condition each
    operand is tested once, left to right. *)

Definition py_and (a b : M bool) : M bool :=
  x <- a ;; if x then b else ret false.

Definition py_or (a b : M bool) : M bool :=
  x <- a ;; if x then ret true else b.

Definition py_not (a : M bool) : M bool :=
  x <- a ;; ret (negb x).

Definition assert_ (cond : M bool) : M unit :=
  x <- cond ;; if x then ret tt else raise AssertionError.

(** ** Membership: [item in v], for a [str] item

    A [str] equals only another [str] with the same text (instances keep
    the default [__eq__]). *)

Definition str_eq (item : string) (x : value) : bool :=
  match x with VStr s => String.eqb item s | _ => false end.

Fixpoint is_substring (t s : string) : bool :=
  String.prefix t s
  || match s with
     | EmptyString => false
     | String _ s' => is_substring t s'
     end.

(** The part of a generator left after searching it for [item]: the search
    stops on the first match. *)
Fixpoint after_match (item : string) (pending : list value) : list value :=
  match pending with
  | [] => []
  | x :: rest => if str_eq item x then rest else after_match item rest
  end.

(** The old sequence protocol: [v[0]], [v[1]], ... until [IndexError]. *)
Fixpoint seq_search (fuel : nat) (getitem : list value -> hook value)
    (item : string) (i : Z) : hook bool :=
  fun d =>
    match fuel with
    | O => (Timeout, d)
    | S fuel' =>
        match getitem [VInt i] d with
        | (Ok x, d') =>
            if str_eq item x then (Ok true, d')
            else seq_search fuel' getitem item (i + 1) d'
        | (Raise IndexError, d') | (Raise StopIteration, d') => (Ok false, d')
        | (Raise e, d') => (Raise e, d')
        | (Timeout, d') => (Timeout, d')
        end
    end.



Section Loops.

(** Step budget of the loops the interpreter runs over [__getitem__]. *)
Variable fuel : nat.


(** [item in v] *)
Definition py_in (item : string) (v : value) : M bool :=
  match v with
  | VNone | VBool _ | VInt _ => raise TypeError
  | VStr s => ret (is_substring item s)
  | VTuple items => ret (existsb (str_eq item) items)
  | VRef l =>
      o <- deref l ;;
      match o with
      | OList items | OSet items => ret (existsb (str_eq item) items)
      | ODict entries => ret (existsb (str_eq item) (map fst entries))
      | OGen pending =>
          fun w =>
            (Ok (existsb (str_eq item) pending),
             set_heap (<[l := OGen (after_match item pending)]> (heap w)) w)
      | OInst c d =>
          match assoc "__contains__" c with
          | Some (Method body) =>
              r <- on_instance l c d (body [VStr item]) ;; truth r
          | Some _ => raise TypeError
          | None =>
              match assoc "__iter__" c with
              | Some (GenMethod body) =>
                  xs <- on_instance l c d body ;; ret (existsb (str_eq item) xs)
              | Some (Method body) =>
                  r <- on_instance l c d (body []) ;;
                  match r with
                  | VRef l' =>
                      o' <- deref l' ;;
                      match o' with
                      | OGen pending =>
                          fun w =>
                            (Ok (existsb (str_eq item) pending),
                             set_heap (<[l' := OGen (after_match item pending)]> (heap w)) w)
                      | _ => raise TypeError
                      end
                  | _ => raise TypeError
                  end
              | Some (Attr _) => raise TypeError
              | None =>
                  match assoc "__getitem__" c with
                  | Some (Method body) =>
                      on_instance l c d (seq_search fuel body item 0)
                  | _ => raise TypeError
                  end
              end
          end
      end
  end.

End Loops.

(** ** The collaborators

    [User] and [save_to_database] are defined nowhere in the repository.
    They are taken as parameters: any code that runs on the store.  Each
    call is recorded in the trace before it runs. *)

Class Collaborators := {
  User_impl : value -> value -> value ->
              gmap loc object -> outcome value * gmap loc object;
  save_impl : value -> gmap loc object -> outcome value * gmap loc object
}.

Definition external (c : call)
    (f : gmap loc object -> outcome value * gmap loc object) : M value :=
  fun w =>
    let '(r, h') := f (heap w) in
    (r, {| heap := h'; trace := trace w ++ [c] |}).

Definition User {ext : Collaborators} (name categories attributes : value) : M value :=
  external (CallUser name categories attributes)
           (User_impl name categories attributes).

Definition save_to_database {ext : Collaborators} (user_obj : value) : M value :=
  external (CallSave user_obj) (save_impl user_obj).

End Py.

Import Py.

(** * rtc_typing_example.py *)

Module rtc_typing_example.
Section Program.
Context {ext : Collaborators}.

(** [attributes=None] is a default of the call: [NewUser(name, categories)]
    is [NewUser name categories VNone]. *)
Definition NewUser (name categories attributes : value) : M value :=
  assert_ (py_and (truth name) (truth categories)) ;;;
  assert_ (ret (isinstance_str name)) ;;;
  assert_ (hasattr categories "__iter__") ;;;
  assert_ (py_or (py_not (truth attributes))
                 (py_and (hasattr attributes "__getitem__")
                         (hasattr attributes "__setitem__"))) ;;;
  user_obj <- User name categories attributes ;;
  save_to_database user_obj.

End Program.

(** Lines 10-13 on their own: the precondition gate. *)
Definition gate (name categories attributes : value) : M unit :=
  assert_ (py_and (truth name) (truth categories)) ;;;
  assert_ (ret (isinstance_str name)) ;;;
  assert_ (hasattr categories "__iter__") ;;;
  assert_ (py_or (py_not (truth attributes))
                 (py_and (hasattr attributes "__getitem__")
                         (hasattr attributes "__setitem__"))).

End rtc_typing_example.

(** * rtc_typing_example2.py *)

Module rtc_typing_example2.

Definition is_dict_like (obj : value) : M bool :=
  py_and (hasattr obj "__getitem__") (hasattr obj "__setitem__").

Definition is_iterable (obj : value) : M bool :=
  hasattr obj "__iter__".

Definition is_optional_dict (obj : value) : M bool :=
  py_or (py_not (truth obj)) (is_dict_like obj).

Section Program.
Context {ext : Collaborators}.

Definition NewUser (name categories attributes : value) : M value :=
  assert_ (py_and (truth name) (truth categories)) ;;;
  assert_ (ret (isinstance_str name)) ;;;
  assert_ (is_iterable categories) ;;;
  assert_ (is_optional_dict attributes) ;;;
  user_obj <- User name categories attributes ;;
  save_to_database user_obj.

End Program.

(** Lines 19-22 on their own: the precondition gate. *)
Definition gate (name categories attributes : value) : M unit :=
  assert_ (py_and (truth name) (truth categories)) ;;;
  assert_ (ret (isinstance_str name)) ;;;
  assert_ (is_iterable categories) ;;;
  assert_ (is_optional_dict attributes).

End rtc_typing_example2.

(** * rtc_typing_example3.py *)

Module rtc_typing_example3.

Definition is_dict_like (obj : value) : M bool :=
  py_and (hasattr obj "__getitem__") (hasattr obj "__setitem__").

Definition is_iterable (obj : value) : M bool :=
  hasattr obj "__iter__".

Definition is_optional_dict (obj : value) : M bool :=
  py_or (py_not (truth obj)) (is_dict_like obj).

Section Program.
Context {ext : Collaborators}.
Variable fuel : nat.

Definition NewUser (name categories attributes : value) : M value :=
  assert_ (py_and (truth name) (truth categories)) ;;;
  assert_ (ret (isinstance_str name)) ;;;
  assert_ (is_iterable categories) ;;;
  assert_ (is_optional_dict attributes) ;;;
  user_obj <- User name categories attributes ;;
  result <- save_to_database user_obj ;;
  assert_ (py_or (py_not (truth result))
                 (py_and (is_dict_like result)
                 (py_and (py_in fuel "name" result)
                 (py_and (py_in fuel "categories" result)
                         (py_in fuel "attributes" result))))) ;;;
  ret result.

End Program.

(** Lines 19-22 on their own: the precondition gate. *)
Definition gate (name categories attributes : value) : M unit :=
  assert_ (py_and (truth name) (truth categories)) ;;;
  assert_ (ret (isinstance_str name)) ;;;
  assert_ (is_iterable categories) ;;;
  assert_ (is_optional_dict attributes).

(** The condition of line 26 on its own: the check of the result. *)
Definition result_check (fuel : nat) (result : value) : M bool :=
  py_or (py_not (truth result))
        (py_and (is_dict_like result)
        (py_and (py_in fuel "name" result)
        (py_and (py_in fuel "categories" result)
                (py_in fuel "attributes" result)))).

End rtc_typing_example3.

Module V1 := rtc_typing_example.
Module V2 := rtc_typing_example2.
Module V3 := rtc_typing_example3.

(** * Vocabulary of the specification *)

(** [c], run in [w], returns [a]. *)
Definition returns {A} (c : M A) (w : world) (a : A) : Prop :=
  exists w', c w = (Ok a, w').

(** Looking [name] up on [v] in [w] gives an attribute and leaves [w']:
    [v] exposes the operation. *)
Definition exposes (v : value) (name : string) (w w' : world) : Prop :=
  getattr v name w = (Ok tt, w').

(** The truth test of [v] and the lookup of the three probed names return
    normally (an attribute or [AttributeError]) and leave the world as it
    is. *)
Definition probed : list string := ["__getitem__"; "__setitem__"; "__iter__"].

Definition quiet_truth (w : world) (v : value) : Prop :=
  exists b, truth v w = (Ok b, w).

Definition quiet_attrs (w : world) (v : value) : Prop :=
  Forall (fun name => exists b, hasattr v name w = (Ok b, w)) probed.

Definition quiet (w : world) (v : value) : Prop :=
  quiet_truth w v /\ quiet_attrs w v.

(** The type of [v], when [v] is a value of one of the nine modelled
    built-in types.  An instance of a class has none, nor has a reference
    to nothing. *)
Definition kind_of (w : world) (v : value) : option kind :=
  match v with
  | VNone => Some KNone
  | VBool _ => Some KBool
  | VInt _ => Some KInt
  | VStr _ => Some KStr
  | VTuple _ => Some KTuple
  | VRef l =>
      match heap w !! l with
      | Some (OList _) => Some KList
      | Some (OSet _) => Some KSet
      | Some (ODict _) => Some KDict
      | Some (OGen _) => Some KGen
      | Some (OInst _ _) | None => None
      end
  end.

(** [v] is [None], a [bool], [int], [str], [tuple], [list], [set], [dict]
    or generator. *)
Definition is_builtin (w : world) (v : value) : bool :=
  match kind_of w v with Some _ => true | None => false end.

(** The modelled types whose values can be iterated. *)
Definition iterable_kind (k : kind) : bool :=
  match k with
  | KNone | KBool | KInt => false
  | KStr | KTuple | KList | KSet | KDict | KGen => true
  end.


(** Some required structural predicate fails on the triple: the name or
    the categories test false, the name is no [str], the categories are not
    iterable, or the attributes test true and are not dict-like. *)
Definition fails_precondition (name categories attributes : value) (w : world) : Prop :=
  returns (truth name) w false
  \/ returns (truth categories) w false
  \/ isinstance_str name = false
  \/ returns (V2.is_iterable categories) w false
  \/ (returns (truth attributes) w true
      /\ returns (V2.is_dict_like attributes) w false).

(** A result the third variant lets through: falsy, or dict-like and
    holding the three keys. *)
Definition acceptable (fuel : nat) (result : value) (w : world) : Prop :=
  returns (truth result) w false
  \/ (returns (V3.is_dict_like result) w true
      /\ returns (py_in fuel "name" result) w true
      /\ returns (py_in fuel "categories" result) w true
      /\ returns (py_in fuel "attributes" result) w true).

Definition has_keys (entries : list (value * value)) : bool :=
  existsb (str_eq "name") (map fst entries)
  && existsb (str_eq "categories") (map fst entries)
  && existsb (str_eq "attributes") (map fst entries).

(** The rest of [NewUser] in the first two variants, after the gate. *)
Definition construct_and_save {ext : Collaborators}
    (name categories attributes : value) : M value :=
  user_obj <- User name categories attributes ;;
  save_to_database user_obj.




(** * Sample objects *)

(** A frame in the style of the array libraries: indexable both ways,
    iterable, and with no truth value.
<<
    class Frame:
        def __getitem__(self, key): return self.__dict__[key]
        def __setitem__(self, key, value): setattr(self, key, value)
        def __iter__(self): yield from self.__dict__
        def __bool__(self): raise ValueError("truth value is ambiguous")
>> *)
Definition Frame : class :=
  [("__getitem__",
    Method (fun args d =>
      match args with
      | [VStr k] => match assoc k d with
                    | Some x => (Ok x, d)
                    | None => (Raise KeyError, d)
                    end
      | _ => (Raise KeyError, d)
      end));
   ("__setitem__",
    Method (fun args d =>
      match args with
      | [VStr k; x] => (Ok VNone, (k, x) :: d)
      | _ => (Raise TypeError, d)
      end));
   ("__iter__", GenMethod (fun d => (Ok (map (fun kx => VStr (fst kx)) d), d)));
   ("__bool__", Method (fun _ d => (Raise ValueError, d)))].

(** An object that records that it was truth tested.
<<
    class Probe:
        def __bool__(self):
            self.tested = True
            return True
>> *)
Definition Probe : class :=
  [("__bool__", Method (fun _ d => (Ok (VBool true), ("tested", VBool true) :: d)))].

(** A sequence of the old protocol: indexable from 0, no [__iter__].
<<
    class Squares:
        def __getitem__(self, i):
            if i >= 3: raise IndexError(i)
            return i * i
>> *)
Definition Squares : class :=
  [("__getitem__",
    Method (fun args d =>
      match args with
      | [VInt i] => if 3 <=? i then (Raise IndexError, d) else (Ok (VInt (i * i)), d)
      | _ => (Raise TypeError, d)
      end))].

(** A store with one object of each kind used below. *)
Definition sample_heap : gmap loc object :=
  <[1%positive := OList [VStr "admin"; VStr "user"]]>
  (<[2%positive := ODict [(VStr "age", VInt 30)]]>
  (<[3%positive := OInst Frame []]>
  (<[4%positive := OInst Probe []]>
  (<[5%positive := OInst Squares []]>
  (<[6%positive := ODict []]>
  (<[7%positive := OSet [VInt 1]]>
  (<[8%positive := OGen [VInt 1; VInt 2]]>
  (<[9%positive :=
       ODict [(VStr "name", VStr "alice");
              (VStr "categories", VRef 1);
              (VStr "attributes", VRef 2)]]> ∅)))))))).

Definition sample : world := {| heap := sample_heap; trace := [] |}.

(** Collaborators for the examples: [User] packs its arguments in a
    tuple, [save_to_database] answers [result] whatever it is given. *)
Definition answering (result : value) : Collaborators :=
  {| User_impl := fun name categories attributes h =>
                    (Ok (VTuple [name; categories; attributes]), h);
     save_impl := fun _ h => (Ok result, h) |}.

(** The world once [User] and [save_to_database] have been called on the
    sample triple and have left the store as it was. *)
Definition saved : world :=
  {| heap := sample_heap;
     trace := [CallUser (VStr "alice") (VRef 1) (VRef 2);
               CallSave (VTuple [VStr "alice"; VRef 1; VRef 2])] |}.



(** * Further vocabulary *)

(** [c] leaves the record of collaborator calls as it found it. *)
Definition keeps_trace {A} (c : M A) : Prop :=
  forall w, trace (snd (c w)) = trace w.

(** The truth value of a value of one of the nine modelled types. *)
Definition truth_value (w : world) (v : value) : bool :=
  match v with
  | VNone => false
  | VBool b => b
  | VInt n => negb (n =? 0)
  | VStr s => negb (String.eqb s "")
  | VTuple items => nonempty items
  | VRef l =>
      match heap w !! l with
      | Some (OList items) | Some (OSet items) => nonempty items
      | Some (ODict entries) => nonempty entries
      | _ => true
      end
  end.

Definition kind_is (p : kind -> bool) (w : world) (v : value) : bool :=
  match kind_of w v with Some k => p k | None => false end.

(** The modelled types with both [__getitem__] and [__setitem__]. *)
Definition dict_like_kind (k : kind) : bool :=
  match k with KList | KDict => true | _ => false end.

(** The triples of values of the nine modelled types the gate lets
    through. *)
Definition gate_accepts (w : world) (name categories attributes : value) : bool :=
  truth_value w name && truth_value w categories
  && isinstance_str name
  && kind_is iterable_kind w categories
  && (negb (truth_value w attributes) || kind_is dict_like_kind w attributes).

(** The three names are among the elements of a [list] or the keys of a
    [dict]. *)
Definition holds_names (w : world) (result : value) : bool :=
  match result with
  | VRef l =>
      match heap w !! l with
      | Some (OList items) =>
          existsb (str_eq "name") items
          && existsb (str_eq "categories") items
          && existsb (str_eq "attributes") items
      | Some (ODict entries) => has_keys entries
      | _ => false
      end
  | _ => false
  end.

(** The results of the nine modelled types the third variant lets
    through. *)
Definition result_accepted (w : world) (result : value) : bool :=
  negb (truth_value w result) || holds_names w result.

(** Collaborators whose [User] raises [e]. *)
Definition refusing (e : exn) : Collaborators :=
  {| User_impl := fun _ _ _ h => (Raise e, h);
     save_impl := fun _ h => (Ok VNone, h) |}.

(** The sample store with one more object, the list
    [["name", "categories", "attributes"]]. *)
Definition listed : world :=
  {| heap := <[10%positive :=
                 OList [VStr "name"; VStr "categories"; VStr "attributes"]]>
             sample_heap;
     trace := [] |}.

(** The record of calls after [User] and [save_to_database] have run on the
    sample triple. *)
Definition both_calls : list call :=
  [CallUser (VStr "alice") (VRef 1) (VRef 2);
   CallSave (VTuple [VStr "alice"; VRef 1; VRef 2])].

(** * Properties *)

(** Case analysis on every computation a goal is waiting for. *)
Ltac step_binds :=
  repeat match goal with
         | |- context [match ?c ?w with _ => _ end] =>
             lazymatch type of (c w) with
             | (outcome _ * world)%type => destruct (c w) as [[?|?|] ?]
             end; try reflexivity
         end.


Section Monad.
Context {A B : Type}.

Lemma bind_ok (c : M A) (k : A -> M B) w b w' :
  bind c k w = (Ok b, w') <->
  exists a w1, c w = (Ok a, w1) /\ k a w1 = (Ok b, w').
Proof.
  unfold bind. destruct (c w) as [[a|e|] w1]; split.
  - intros Hk. exists a, w1. auto.
  - intros (a' & w2 & Hc & Hk). inversion Hc; subst. exact Hk.
  - discriminate.
  - intros (a' & w2 & Hc & _). discriminate.
  - discriminate.
  - intros (a' & w2 & Hc & _). discriminate.
Qed.

Lemma bind_step (c : M A) (k : A -> M B) w a w1 :
  c w = (Ok a, w1) -> bind c k w = k a w1.
Proof. intros Hc. unfold bind. now rewrite Hc. Qed.

End Monad.

Lemma hasattr_true v name w w' :
  hasattr v name w = (Ok true, w') <-> exposes v name w w'.
Proof.
  unfold hasattr, exposes.
  destruct (getattr v name w) as [[[]|e|] w1]; [|destruct e|]; split; congruence.
Qed.

(** On a value of one of the nine modelled types, attribute lookup
    consults the table of the type and nothing else. *)
Lemma getattr_builtin w v k name :
  kind_of w v = Some k -> getattr v name w = type_getattr k name w.
Proof.
  destruct v as [| | | | |l]; cbn; try (intros [= <-]; reflexivity).
  unfold bind, deref. destruct (heap w !! l) as [[]|]; intros [= <-]; reflexivity.
Qed.

Lemma hasattr_builtin w v k name :
  kind_of w v = Some k -> hasattr v name w = (Ok (mem name (type_attrs k)), w).
Proof.
  intros Hk. unfold hasattr. rewrite (getattr_builtin _ _ _ _ Hk).
  unfold type_getattr. now destruct (mem name (type_attrs k)).
Qed.

(** C1.  [is_dict_like] returns true exactly when the lookups of
    [__getitem__] and of [__setitem__] both give an attribute; it returns
    false for every [int], every [str] and [None], and true for every
    [dict]. *)
Theorem is_dict_like_iff_exposes_both :
  (forall v w w',
     V2.is_dict_like v w = (Ok true, w') <->
     exists w1, exposes v "__getitem__" w w1 /\ exposes v "__setitem__" w1 w')
  /\ (forall n w, V2.is_dict_like (VInt n) w = (Ok false, w))
  /\ (forall s w, V2.is_dict_like (VStr s) w = (Ok false, w))
  /\ (forall w, V2.is_dict_like VNone w = (Ok false, w))
  /\ (forall l entries w,
        heap w !! l = Some (ODict entries) ->
        V2.is_dict_like (VRef l) w = (Ok true, w)).
Proof.
  repeat split.
  - intros Hd. unfold V2.is_dict_like, py_and in Hd.
    apply bind_ok in Hd as (a & w1 & H1 & H2).
    destruct a; [|discriminate].
    exists w1. split; now apply hasattr_true.
  - intros (w1 & H1 & H2). unfold V2.is_dict_like, py_and.
    apply hasattr_true in H1. rewrite (bind_step _ _ _ _ _ H1).
    now apply hasattr_true.
  - intros l entries w Hl.
    assert (Hk : kind_of w (VRef l) = Some KDict) by (cbn; now rewrite Hl).
    unfold V2.is_dict_like, py_and.
    rewrite (bind_step _ _ _ _ _ (hasattr_builtin _ _ _ "__getitem__" Hk)). cbn.
    now rewrite (hasattr_builtin _ _ _ "__setitem__" Hk).
Qed.

Lemma is_dict_like_iff_exposes_both_witness :
  V2.is_dict_like (VRef 2) sample = (Ok true, sample)
  /\ exists w1, exposes (VRef 9) "__getitem__" sample w1
                /\ exposes (VRef 9) "__setitem__" w1 sample.
Proof.
  split.
  - apply (proj2 (proj2 (proj2 (proj2 is_dict_like_iff_exposes_both))) 2%positive
             [(VStr "age", VInt 30)] sample).
    reflexivity.
  - apply (proj1 (proj1 is_dict_like_iff_exposes_both (VRef 9) sample sample)).
    reflexivity.
Defined.

(** ** Truth tests and lookups on values of the modelled types *)

Lemma truth_builtin w v :
  is_builtin w v = true -> exists b, truth v w = (Ok b, w).
Proof.
  unfold is_builtin. destruct v as [| | | | |l]; cbn; try (intros _; eexists; reflexivity).
  unfold bind, deref. destruct (heap w !! l) as [[]|]; try discriminate;
    intros _; eexists; reflexivity.
Qed.

Lemma truth_container w l o :
  heap w !! l = Some o ->
  match o with OInst _ _ => False | _ => True end ->
  truth (VRef l) w =
  (Ok match o with
      | OList items | OSet items => nonempty items
      | ODict entries => nonempty entries
      | _ => true
      end, w).
Proof.
  intros Hl Ho. cbn. unfold bind, deref. rewrite Hl. now destruct o.
Qed.

Lemma builtin_quiet w v : is_builtin w v = true -> quiet w v.
Proof.
  intros Hb. split; [now apply truth_builtin|].
  unfold is_builtin in Hb. destruct (kind_of w v) as [k|] eqn:Hk; [|discriminate].
  unfold quiet_attrs, probed.
  repeat constructor; eexists; apply (hasattr_builtin _ _ _ _ Hk).
Qed.

Lemma quiet_attrs_hasattr w v name :
  quiet_attrs w v -> In name probed -> exists b, hasattr v name w = (Ok b, w).
Proof.
  unfold quiet_attrs. rewrite Forall_forall. intros Hq Hin.
  apply Hq. now apply list_elem_of_In.
Qed.

Lemma is_dict_like_quiet w v :
  quiet_attrs w v -> exists b, V2.is_dict_like v w = (Ok b, w).
Proof.
  intros Hq.
  destruct (quiet_attrs_hasattr w v "__getitem__" Hq) as [b1 H1]; [cbn; auto|].
  destruct (quiet_attrs_hasattr w v "__setitem__" Hq) as [b2 H2]; [cbn; auto|].
  unfold V2.is_dict_like, py_and. rewrite (bind_step _ _ _ _ _ H1).
  destruct b1; [exists b2; exact H2 | exists false; reflexivity].
Qed.

Lemma is_optional_dict_quiet w v :
  quiet w v -> exists b, V2.is_optional_dict v w = (Ok b, w).
Proof.
  intros [[b Ht] Hq]. destruct (is_dict_like_quiet w v Hq) as [b' Hd].
  unfold V2.is_optional_dict, py_or, py_not.
  unfold bind at 1. unfold bind at 1. rewrite Ht. cbn.
  destruct b; cbn; [exists b'; exact Hd | exists true; reflexivity].
Qed.

Lemma is_optional_dict_step v w b w1 :
  truth v w = (Ok b, w1) ->
  V2.is_optional_dict v w = if b then V2.is_dict_like v w1 else (Ok true, w1).
Proof.
  intros Ht. unfold V2.is_optional_dict, py_or, py_not.
  unfold bind at 1. unfold bind at 1. rewrite Ht. now destruct b.
Qed.

Lemma is_optional_dict_raise v w e w1 :
  truth v w = (Raise e, w1) -> V2.is_optional_dict v w = (Raise e, w1).
Proof.
  intros Ht. unfold V2.is_optional_dict, py_or, py_not.
  unfold bind at 1. unfold bind at 1. now rewrite Ht.
Qed.

(** C2, as the code has it.  When the truth test of [v] returns,
    [is_optional_dict] returns true exactly when [v] tested false or
    [is_dict_like], run next, returns true; when the truth test raises,
    [is_optional_dict] raises the same exception.  It returns true for
    [None] and for an empty [dict]. *)
Theorem is_optional_dict_iff_falsy_or_dict_like :
  (forall v w b w1,
     truth v w = (Ok b, w1) ->
     (returns (V2.is_optional_dict v) w true <->
      b = false \/ returns (V2.is_dict_like v) w1 true))
  /\ (forall v w e w1,
        truth v w = (Raise e, w1) -> V2.is_optional_dict v w = (Raise e, w1))
  /\ (forall w, V2.is_optional_dict VNone w = (Ok true, w))
  /\ (forall l w,
        heap w !! l = Some (ODict []) ->
        V2.is_optional_dict (VRef l) w = (Ok true, w)).
Proof.
  split; [|split; [|split]].
  - intros v w b w1 Ht. unfold returns. rewrite (is_optional_dict_step _ _ _ _ Ht).
    destruct b; split.
    + intros [w' Hd]. right. now exists w'.
    + intros [|Hd]; [discriminate | exact Hd].
    + intros _. now left.
    + intros _. now exists w1.
  - apply is_optional_dict_raise.
  - reflexivity.
  - intros l w Hl. apply (is_optional_dict_step (VRef l) w false w).
    cbn. unfold bind, deref. now rewrite Hl.
Qed.

Lemma is_optional_dict_iff_falsy_or_dict_like_witness :
  (returns (V2.is_optional_dict (VRef 2)) sample true <->
   true = false \/ returns (V2.is_dict_like (VRef 2)) sample true)
  /\ V2.is_optional_dict (VRef 3) sample = (Raise ValueError, sample)
  /\ V2.is_optional_dict (VRef 6) sample = (Ok true, sample).
Proof.
  split; [|split].
  - apply (proj1 is_optional_dict_iff_falsy_or_dict_like (VRef 2) sample true sample).
    reflexivity.
  - apply (proj1 (proj2 is_optional_dict_iff_falsy_or_dict_like) (VRef 3) sample).
    reflexivity.
  - apply (proj2 (proj2 (proj2 is_optional_dict_iff_falsy_or_dict_like)) 6%positive sample).
    reflexivity.
Defined.

(** C2 as the specification words it fails on a [Frame]: the frame is
    dict-like, and [is_optional_dict] raises [ValueError] on it. *)
Lemma is_optional_dict_frame_counterexample :
  ~ (returns (V2.is_optional_dict (VRef 3)) sample true <->
     returns (truth (VRef 3)) sample false
     \/ returns (V2.is_dict_like (VRef 3)) sample true).
Proof.
  intros [_ Hback].
  destruct Hback as [w' Hw'].
  - right. exists sample. reflexivity.
  - vm_compute in Hw'. discriminate.
Qed.

(** C3, as the code has it.  A non-empty [list] exposes [__getitem__] and
    [__setitem__], so [is_optional_dict] returns true on it; on a non-empty
    [tuple], [str] or [set], which are present and not assignable by key,
    it returns false. *)
Theorem is_optional_dict_nonempty_sequence :
  (forall l items w,
     heap w !! l = Some (OList items) -> items <> [] ->
     V2.is_optional_dict (VRef l) w = (Ok true, w))
  /\ (forall items w,
        items <> [] -> V2.is_optional_dict (VTuple items) w = (Ok false, w))
  /\ (forall s w,
        s <> "" -> V2.is_optional_dict (VStr s) w = (Ok false, w))
  /\ (forall l items w,
        heap w !! l = Some (OSet items) -> items <> [] ->
        V2.is_optional_dict (VRef l) w = (Ok false, w)).
Proof.
  split; [|split; [|split]].
  - intros l items w Hl Hne.
    assert (Hk : kind_of w (VRef l) = Some KList) by (cbn; now rewrite Hl).
    unfold V2.is_optional_dict, py_or, py_not.
    unfold bind at 1. unfold bind at 1. cbn. unfold bind at 1, deref. rewrite Hl.
    destruct items; [congruence|]. cbn.
    unfold V2.is_dict_like, py_and.
    rewrite (bind_step _ _ _ _ _ (hasattr_builtin _ _ _ "__getitem__" Hk)). cbn.
    now rewrite (hasattr_builtin _ _ _ "__setitem__" Hk).
  - intros items w Hne. destruct items; [congruence|]. reflexivity.
  - intros s w Hne. unfold V2.is_optional_dict, py_or, py_not.
    unfold bind at 1. unfold bind at 1. cbn.
    destruct (String.eqb_spec s ""); [congruence|]. reflexivity.
  - intros l items w Hl Hne.
    assert (Hk : kind_of w (VRef l) = Some KSet) by (cbn; now rewrite Hl).
    unfold V2.is_optional_dict, py_or, py_not.
    unfold bind at 1. unfold bind at 1. cbn. unfold bind at 1, deref. rewrite Hl.
    destruct items; [congruence|]. cbn.
    unfold V2.is_dict_like, py_and.
    now rewrite (bind_step _ _ _ _ _ (hasattr_builtin _ _ _ "__getitem__" Hk)).
Qed.

Lemma is_optional_dict_nonempty_sequence_witness :
  V2.is_optional_dict (VRef 1) sample = (Ok true, sample)
  /\ V2.is_optional_dict (VTuple [VInt 1]) sample = (Ok false, sample)
  /\ V2.is_optional_dict (VStr "abc") sample = (Ok false, sample)
  /\ V2.is_optional_dict (VRef 7) sample = (Ok false, sample).
Proof.
  split; [|split; [|split]].
  - apply (proj1 is_optional_dict_nonempty_sequence 1%positive
             [VStr "admin"; VStr "user"] sample); [reflexivity | discriminate].
  - apply (proj1 (proj2 is_optional_dict_nonempty_sequence)). discriminate.
  - apply (proj1 (proj2 (proj2 is_optional_dict_nonempty_sequence))). discriminate.
  - apply (proj2 (proj2 (proj2 is_optional_dict_nonempty_sequence)) 7%positive
             [VInt 1] sample); [reflexivity | discriminate].
Defined.

(** C3 as the specification words it fails on the list
    [["admin", "user"]]: [is_optional_dict] returns true, not false. *)
Lemma is_optional_dict_list_counterexample :
  heap sample !! 1%positive = Some (OList [VStr "admin"; VStr "user"])
  /\ V2.is_optional_dict (VRef 1) sample = (Ok true, sample)
  /\ ~ returns (V2.is_optional_dict (VRef 1)) sample false.
Proof.
  split; [reflexivity|]. split; [reflexivity|].
  intros [w' Hw']. vm_compute in Hw'. discriminate.
Qed.

(** C10, as the code has it.  When the truth test of [v] returns and leaves
    the world as it is, [is_dict_like(v)] true gives [is_optional_dict(v)]
    true, whichever way the truth test came out. *)
Theorem is_dict_like_implies_is_optional_dict v w :
  quiet_truth w v ->
  returns (V2.is_dict_like v) w true ->
  returns (V2.is_optional_dict v) w true.
Proof.
  intros [b Ht] Hd. unfold returns. rewrite (is_optional_dict_step _ _ _ _ Ht).
  destruct b; [exact Hd | now exists w].
Qed.

Lemma is_dict_like_implies_is_optional_dict_witness :
  returns (V2.is_optional_dict (VRef 2)) sample true
  /\ returns (V2.is_optional_dict (VRef 6)) sample true.
Proof.
  split.
  - apply (is_dict_like_implies_is_optional_dict (VRef 2) sample).
    + exists true. reflexivity.
    + exists sample. reflexivity.
  - apply (is_dict_like_implies_is_optional_dict (VRef 6) sample).
    + exists false. reflexivity.
    + exists sample. reflexivity.
Defined.

(** C10 as the specification words it fails on a [Frame]: [is_dict_like]
    returns true on it and [is_optional_dict] raises [ValueError]. *)
Lemma is_dict_like_frame_counterexample :
  V2.is_dict_like (VRef 3) sample = (Ok true, sample)
  /\ V2.is_optional_dict (VRef 3) sample = (Raise ValueError, sample)
  /\ ~ (returns (V2.is_dict_like (VRef 3)) sample true ->
        returns (V2.is_optional_dict (VRef 3)) sample true).
Proof.
  split; [reflexivity|]. split; [reflexivity|].
  intros Himp. destruct Himp as [w' Hw'].
  - exists sample. reflexivity.
  - vm_compute in Hw'. discriminate.
Qed.








(** ** Iteration *)







(** ** The precondition gate *)

Section Gate.
Context {ext : Collaborators}.

Lemma NewUser1_gate n c a w :
  V1.NewUser n c a w = (V1.gate n c a ;;; construct_and_save n c a) w.
Proof. unfold V1.NewUser, V1.gate, construct_and_save, bind. step_binds. Qed.

Lemma NewUser2_gate n c a w :
  V2.NewUser n c a w = (V2.gate n c a ;;; construct_and_save n c a) w.
Proof. unfold V2.NewUser, V2.gate, construct_and_save, bind. step_binds. Qed.

Lemma NewUser3_gate fuel n c a w :
  V3.NewUser fuel n c a w =
  (V3.gate n c a ;;;
   user_obj <- User n c a ;;
   result <- save_to_database user_obj ;;
   assert_ (V3.result_check fuel result) ;;; ret result) w.
Proof. unfold V3.NewUser, V3.gate, V3.result_check, bind. step_binds. Qed.

End Gate.

Lemma gate12 n c a w : V1.gate n c a w = V2.gate n c a w.
Proof. reflexivity. Qed.

Lemma gate23 n c a w : V2.gate n c a w = V3.gate n c a w.
Proof. reflexivity. Qed.

(** On quiet values the gate is the conjunction of its five tests. *)
Lemma gate_quiet n c a w :
  quiet_truth w n -> quiet w c -> quiet w a ->
  exists tn tc ic oa,
    truth n w = (Ok tn, w) /\ truth c w = (Ok tc, w)
    /\ V2.is_iterable c w = (Ok ic, w) /\ V2.is_optional_dict a w = (Ok oa, w)
    /\ V2.gate n c a w =
       if tn && tc && isinstance_str n && ic && oa
       then (Ok tt, w) else (Raise AssertionError, w).
Proof.
  intros [tn Hn] [[tc Hc] Hqc] Hqa.
  destruct (quiet_attrs_hasattr w c "__iter__" Hqc) as [ic Hi]; [cbn; auto|].
  change (V2.is_iterable c w = (Ok ic, w)) in Hi.
  destruct (is_optional_dict_quiet w a Hqa) as [oa Ho].
  exists tn, tc, ic, oa. repeat (split; [assumption|]).
  unfold V2.gate, assert_, py_and.
  unfold bind at 1. unfold bind at 1. unfold bind at 1. rewrite Hn.
  destruct tn; cbn; [|reflexivity]. rewrite Hc.
  destruct tc; cbn; [|reflexivity].
  unfold bind at 1. unfold bind at 1. cbn.
  destruct (isinstance_str n); cbn; [|reflexivity].
  unfold bind at 1. unfold bind at 1. rewrite Hi.
  destruct ic; cbn; [|reflexivity].
  unfold bind. rewrite Ho. now destruct oa.
Qed.

Lemma is_dict_like_builtin w v k :
  kind_of w v = Some k ->
  V2.is_dict_like v w =
  (Ok (mem "__getitem__" (type_attrs k) && mem "__setitem__" (type_attrs k)), w).
Proof.
  intros Hk. unfold V2.is_dict_like, py_and.
  rewrite (bind_step _ _ _ _ _ (hasattr_builtin _ _ _ "__getitem__" Hk)).
  destruct (mem "__getitem__" (type_attrs k)); [|reflexivity].
  apply (hasattr_builtin _ _ _ "__setitem__" Hk).
Qed.

Lemma gate_passes n c a w w1 :
  V2.gate n c a w = (Ok tt, w1) ->
  forall ext : Collaborators,
    V1.NewUser n c a w = construct_and_save n c a w1
    /\ V2.NewUser n c a w = construct_and_save n c a w1.
Proof.
  intros Hg ext. rewrite NewUser1_gate, NewUser2_gate.
  unfold bind. change (V1.gate n c a w) with (V2.gate n c a w).
  rewrite Hg. now split.
Qed.

Lemma gate_fails n c a w e w1 :
  V2.gate n c a w = (Raise e, w1) ->
  forall (ext : Collaborators) fuel,
    V1.NewUser n c a w = (Raise e, w1)
    /\ V2.NewUser n c a w = (Raise e, w1)
    /\ V3.NewUser fuel n c a w = (Raise e, w1).
Proof.
  intros Hg ext fuel. rewrite NewUser1_gate, NewUser2_gate, NewUser3_gate.
  unfold bind. change (V1.gate n c a w) with (V2.gate n c a w).
  change (V3.gate n c a w) with (V2.gate n c a w).
  rewrite Hg. now repeat split.
Qed.

(** C6.  With name ["alice"], categories [["admin", "user"]] and attributes
    [{"age": 30}] the gate of [NewUser] passes, leaves the world as it is,
    and [NewUser] goes on to construct and save.  With name [""], whatever
    the other arguments, [NewUser] raises [AssertionError] in the world it
    was called in: no collaborator has been called. *)
Theorem NewUser_alice_passes_and_empty_name_fails (ext : Collaborators) :
  (forall w lc la,
     heap w !! lc = Some (OList [VStr "admin"; VStr "user"]) ->
     heap w !! la = Some (ODict [(VStr "age", VInt 30)]) ->
     V2.gate (VStr "alice") (VRef lc) (VRef la) w = (Ok tt, w)
     /\ V1.gate (VStr "alice") (VRef lc) (VRef la) w = (Ok tt, w)
     /\ V2.NewUser (VStr "alice") (VRef lc) (VRef la) w
        = construct_and_save (VStr "alice") (VRef lc) (VRef la) w
     /\ V1.NewUser (VStr "alice") (VRef lc) (VRef la) w
        = construct_and_save (VStr "alice") (VRef lc) (VRef la) w)
  /\ (forall c a w,
        V2.NewUser (VStr "") c a w = (Raise AssertionError, w)
        /\ V1.NewUser (VStr "") c a w = (Raise AssertionError, w)).
Proof.
  split.
  - intros w lc la Hlc Hla.
    assert (Hkc : kind_of w (VRef lc) = Some KList) by (cbn; now rewrite Hlc).
    assert (Hka : kind_of w (VRef la) = Some KDict) by (cbn; now rewrite Hla).
    assert (Hg : V2.gate (VStr "alice") (VRef lc) (VRef la) w = (Ok tt, w)).
    { destruct (gate_quiet (VStr "alice") (VRef lc) (VRef la) w)
        as (tn & tc & ic & oa & Hn & Hc & Hi & Ho & Hg);
        try (apply builtin_quiet; unfold is_builtin; rewrite ?Hkc, ?Hka; reflexivity);
        try (exists true; reflexivity).
      rewrite Hg. clear Hg.
      injection Hn as <-.
      rewrite (truth_container _ _ _ Hlc I) in Hc. injection Hc as <-.
      unfold V2.is_iterable in Hi. rewrite (hasattr_builtin _ _ _ _ Hkc) in Hi.
      injection Hi as <-.
      rewrite (is_optional_dict_step _ _ _ _ (truth_container _ _ _ Hla I)) in Ho.
      cbn in Ho. rewrite (is_dict_like_builtin _ _ _ Hka) in Ho. injection Ho as <-.
      reflexivity. }
    split; [exact Hg|]. split; [rewrite gate12; exact Hg|].
    destruct (gate_passes _ _ _ _ _ Hg ext) as [H1 H2]. now split.
  - intros c a w.
    assert (Hg : V2.gate (VStr "") c a w = (Raise AssertionError, w)) by reflexivity.
    destruct (gate_fails _ _ _ _ _ _ Hg ext O) as (H1 & H2 & _). now split.
Qed.

Lemma NewUser_alice_passes_and_empty_name_fails_witness :
  V2.gate (VStr "alice") (VRef 1) (VRef 2) sample = (Ok tt, sample)
  /\ @V2.NewUser (answering (VBool true)) (VStr "alice") (VRef 1) (VRef 2) sample
     = @construct_and_save (answering (VBool true)) (VStr "alice") (VRef 1) (VRef 2) sample.
Proof.
  destruct (proj1 (NewUser_alice_passes_and_empty_name_fails (answering (VBool true)))
              sample 1%positive 2%positive eq_refl eq_refl) as (H2 & _ & H3 & _).
  split; [exact H2 | exact H3].
Defined.

(** C9.  The gate written with [hasattr] in the first variant and the gate
    written with the named predicates in the second and third are the same
    computation: on every triple and in every world they give the same
    outcome and leave the same world, so one passes exactly when the other
    does, and the first two [NewUser] agree altogether. *)
Theorem gates_accept_the_same_triples (ext : Collaborators) n c a w :
  V1.gate n c a w = V2.gate n c a w
  /\ V2.gate n c a w = V3.gate n c a w
  /\ (forall w', V1.gate n c a w = (Ok tt, w') <-> V2.gate n c a w = (Ok tt, w'))
  /\ (forall w', V1.gate n c a w = (Ok tt, w') <-> V3.gate n c a w = (Ok tt, w'))
  /\ V1.NewUser n c a w = V2.NewUser n c a w.
Proof.
  split; [apply gate12|]. split; [apply gate23|].
  split; [intros w'; now rewrite gate12|].
  split; [intros w'; now rewrite gate12, gate23|].
  now rewrite NewUser1_gate, NewUser2_gate.
Qed.

(** C8, as the code has it.  On a triple of quiet values (every value of a
    built-in type is one) in which some required predicate fails, [NewUser]
    raises [AssertionError] in the world it was called in: nothing was
    constructed or saved. *)
Theorem NewUser_rejects_failing_quiet_triples (ext : Collaborators) fuel n c a w :
  quiet_truth w n -> quiet w c -> quiet w a ->
  fails_precondition n c a w ->
  V2.NewUser n c a w = (Raise AssertionError, w)
  /\ V3.NewUser fuel n c a w = (Raise AssertionError, w)
  /\ V1.NewUser n c a w = (Raise AssertionError, w).
Proof.
  intros Hqn Hqc Hqa Hfail.
  destruct (gate_quiet n c a w Hqn Hqc Hqa)
    as (tn & tc & ic & oa & Hn & Hc & Hi & Ho & Hg).
  assert (Hfalse : tn && tc && isinstance_str n && ic && oa = false).
  { destruct Hfail as [[w' H]|[[w' H]|[H|[[w' H]|[[w1 Ht] [w2 Hd]]]]]].
    - rewrite Hn in H. injection H as -> _. reflexivity.
    - rewrite Hc in H. injection H as -> _. now destruct tn.
    - rewrite H. now destruct tn, tc.
    - rewrite Hi in H. injection H as -> _. now destruct tn, tc, (isinstance_str n).
    - rewrite (is_optional_dict_step _ _ _ _ Ht) in Ho.
      destruct Hqa as [[b Hb] _]. rewrite Hb in Ht. injection Ht as _ <-.
      rewrite Hd in Ho. injection Ho as <- _.
      now destruct tn, tc, (isinstance_str n), ic. }
  rewrite Hfalse in Hg.
  destruct (gate_fails _ _ _ _ _ _ Hg ext fuel) as (H1 & H2 & H3). auto.
Qed.

Lemma NewUser_rejects_failing_quiet_triples_witness :
  @V2.NewUser (answering (VBool true)) (VStr "alice") (VInt 5) (VRef 2) sample
  = (Raise AssertionError, sample)
  /\ @V2.NewUser (answering (VBool true)) (VStr "alice") (VRef 1) (VRef 7) sample
     = (Raise AssertionError, sample).
Proof.
  split.
  - apply (NewUser_rejects_failing_quiet_triples (answering (VBool true)) O
             (VStr "alice") (VInt 5) (VRef 2) sample).
    + exists true; reflexivity.
    + split; [exists true; reflexivity|].
      unfold quiet_attrs, probed. repeat constructor; eexists; reflexivity.
    + split; [exists true; reflexivity|].
      unfold quiet_attrs, probed. repeat constructor; eexists; reflexivity.
    + right. right. right. left. exists sample. reflexivity.
  - apply (NewUser_rejects_failing_quiet_triples (answering (VBool true)) O
             (VStr "alice") (VRef 1) (VRef 7) sample).
    + exists true; reflexivity.
    + split; [exists true; reflexivity|].
      unfold quiet_attrs, probed. repeat constructor; eexists; reflexivity.
    + split; [exists true; reflexivity|].
      unfold quiet_attrs, probed. repeat constructor; eexists; reflexivity.
    + right. right. right. right. split; exists sample; reflexivity.
Defined.

(** C8 as the specification words it fails when the categories are a
    [Frame] and the attributes are [5]: the attributes test true and are not
    dict-like, and [NewUser] raises [ValueError], not [AssertionError]. *)
Lemma NewUser_frame_categories_counterexample :
  fails_precondition (VStr "alice") (VRef 3) (VInt 5) sample
  /\ @V2.NewUser (answering (VBool true)) (VStr "alice") (VRef 3) (VInt 5) sample
     = (Raise ValueError, sample)
  /\ ~ (exists w',
          @V2.NewUser (answering (VBool true)) (VStr "alice") (VRef 3) (VInt 5) sample
          = (Raise AssertionError, w')).
Proof.
  split; [|split].
  - right. right. right. right. split; exists sample; reflexivity.
  - reflexivity.
  - intros [w' Hw']. vm_compute in Hw'. discriminate.
Qed.

(** ** The check of the result *)

Lemma py_and_true (a b : M bool) w w' :
  py_and a b w = (Ok true, w') <->
  exists w1, a w = (Ok true, w1) /\ b w1 = (Ok true, w').
Proof.
  unfold py_and. rewrite bind_ok. split.
  - intros (x & w1 & Ha & Hb). destruct x; [|discriminate]. now exists w1.
  - intros (w1 & Ha & Hb). now exists true, w1.
Qed.

Lemma py_or_true (a b : M bool) w w' :
  py_or a b w = (Ok true, w') <->
  a w = (Ok true, w') \/ exists w1, a w = (Ok false, w1) /\ b w1 = (Ok true, w').
Proof.
  unfold py_or. rewrite bind_ok. split.
  - intros (x & w1 & Ha & Hb). destruct x.
    + left. now injection Hb as <-.
    + right. now exists w1.
  - intros [Ha|(w1 & Ha & Hb)]; [now exists true, w' | now exists false, w1].
Qed.

Lemma py_not_returns (a : M bool) w b w' :
  py_not a w = (Ok b, w') <-> a w = (Ok (negb b), w').
Proof.
  unfold py_not. rewrite bind_ok. split.
  - intros (x & w1 & Ha & [= <- <-]). now rewrite negb_involutive.
  - intros Ha. exists (negb b), w'. split; [exact Ha|].
    unfold ret. now rewrite negb_involutive.
Qed.

Lemma assert_ok (c : M bool) w w' :
  assert_ c w = (Ok tt, w') <-> c w = (Ok true, w').
Proof.
  unfold assert_. rewrite bind_ok. split.
  - intros (x & w1 & Hc & Hk). destruct x; [|discriminate]. now injection Hk as <-.
  - intros Hc. now exists true, w'.
Qed.

Lemma py_and_step (a b : M bool) w x w1 :
  a w = (Ok x, w1) -> py_and a b w = if x then b w1 else (Ok false, w1).
Proof. intros Ha. unfold py_and, bind. rewrite Ha. now destruct x. Qed.

Lemma py_or_not_step v (rest : M bool) w b w1 :
  truth v w = (Ok b, w1) ->
  py_or (py_not (truth v)) rest w = if b then rest w1 else (Ok true, w1).
Proof.
  intros Ht. unfold py_or, py_not.
  unfold bind at 1. unfold bind at 1. rewrite Ht. now destruct b.
Qed.

Lemma result_check_true fuel r w w' :
  V3.result_check fuel r w = (Ok true, w') <->
  truth r w = (Ok false, w')
  \/ exists w1 w2 w3 w4,
       truth r w = (Ok true, w1)
       /\ V3.is_dict_like r w1 = (Ok true, w2)
       /\ py_in fuel "name" r w2 = (Ok true, w3)
       /\ py_in fuel "categories" r w3 = (Ok true, w4)
       /\ py_in fuel "attributes" r w4 = (Ok true, w').
Proof.
  unfold V3.result_check. rewrite py_or_true, py_not_returns. cbn [negb].
  split.
  - intros [Ht|(w1 & Ht & Hrest)]; [now left|right].
    apply py_not_returns in Ht. cbn [negb] in Ht.
    apply py_and_true in Hrest as (w2 & Hd & Hrest).
    apply py_and_true in Hrest as (w3 & H1 & Hrest).
    apply py_and_true in Hrest as (w4 & H2 & H3).
    now exists w1, w2, w3, w4.
  - intros [Ht|(w1 & w2 & w3 & w4 & Ht & Hd & H1 & H2 & H3)]; [now left|right].
    exists w1. split; [now apply py_not_returns|].
    apply py_and_true. exists w2. split; [exact Hd|].
    apply py_and_true. exists w3. split; [exact H1|].
    apply py_and_true. now exists w4.
Qed.

Lemma result_check_dict fuel l entries w :
  heap w !! l = Some (ODict entries) ->
  V3.result_check fuel (VRef l) w =
  (Ok (negb (nonempty entries) || has_keys entries), w).
Proof.
  intros Hl.
  assert (Hk : kind_of w (VRef l) = Some KDict) by (cbn; now rewrite Hl).
  assert (Hin : forall item, py_in fuel item (VRef l) w
                             = (Ok (existsb (str_eq item) (map fst entries)), w)).
  { intros item. cbn. unfold bind, deref. now rewrite Hl. }
  unfold V3.result_check, has_keys.
  rewrite (py_or_not_step _ _ _ _ _ (truth_container _ _ _ Hl I)).
  destruct (nonempty entries); [|reflexivity].
  change (V3.is_dict_like (VRef l)) with (V2.is_dict_like (VRef l)).
  rewrite (py_and_step _ _ _ _ _ (is_dict_like_builtin _ _ _ Hk)).
  cbn [type_attrs mem existsb String.eqb Ascii.eqb Bool.eqb andb orb negb].
  rewrite (py_and_step _ _ _ _ _ (Hin "name")).
  destruct (existsb (str_eq "name") (map fst entries)); [|reflexivity].
  rewrite (py_and_step _ _ _ _ _ (Hin "categories")).
  destruct (existsb (str_eq "categories") (map fst entries)); [|reflexivity].
  apply Hin.
Qed.

Section Result.
Context {ext : Collaborators}.

Lemma NewUser3_after_save fuel n c a w w0 u w1 r w2 :
  V3.gate n c a w = (Ok tt, w0) ->
  User n c a w0 = (Ok u, w1) ->
  save_to_database u w1 = (Ok r, w2) ->
  V3.NewUser fuel n c a w = (assert_ (V3.result_check fuel r) ;;; ret r) w2.
Proof.
  intros Hg Hu Hs. rewrite NewUser3_gate.
  unfold bind at 1. rewrite Hg.
  unfold bind at 1. rewrite Hu.
  unfold bind at 1. now rewrite Hs.
Qed.

Lemma NewUser3_returns fuel n c a w r w' :
  V3.NewUser fuel n c a w = (Ok r, w') ->
  exists w0 u w1 w2,
    V3.gate n c a w = (Ok tt, w0)
    /\ User n c a w0 = (Ok u, w1)
    /\ save_to_database u w1 = (Ok r, w2)
    /\ V3.result_check fuel r w2 = (Ok true, w').
Proof.
  rewrite NewUser3_gate. intros H.
  apply bind_ok in H as ([] & w0 & Hg & H).
  apply bind_ok in H as (u & w1 & Hu & H).
  apply bind_ok in H as (r' & w2 & Hs & H).
  apply bind_ok in H as ([] & w3 & Ha & [= <- <-]).
  apply assert_ok in Ha. now exists w0, u, w1, w2.
Qed.

End Result.

(** C7, as the code has it.  Whenever the third [NewUser] returns, it
    returns what [save_to_database] returned, and on that result either the
    truth test gave false, or it gave true, [is_dict_like] gave true and the
    three keys were found in it.  When the check of the result gives false,
    [NewUser] raises [AssertionError]; when the check itself raises,
    [NewUser] raises that exception.  For a [dict] result: [NewUser] returns
    it when it is empty or has the three keys, and raises [AssertionError]
    otherwise. *)
Theorem NewUser3_returns_checked_results (ext : Collaborators) fuel n c a :
  (forall w r w',
     V3.NewUser fuel n c a w = (Ok r, w') ->
     exists w0 u w1 w2,
       V3.gate n c a w = (Ok tt, w0)
       /\ User n c a w0 = (Ok u, w1)
       /\ save_to_database u w1 = (Ok r, w2)
       /\ (truth r w2 = (Ok false, w')
           \/ exists w3 w4 w5 w6,
                truth r w2 = (Ok true, w3)
                /\ V3.is_dict_like r w3 = (Ok true, w4)
                /\ py_in fuel "name" r w4 = (Ok true, w5)
                /\ py_in fuel "categories" r w5 = (Ok true, w6)
                /\ py_in fuel "attributes" r w6 = (Ok true, w')))
  /\ (forall w w0 u w1 r w2,
        V3.gate n c a w = (Ok tt, w0) ->
        User n c a w0 = (Ok u, w1) ->
        save_to_database u w1 = (Ok r, w2) ->
        (forall w3, V3.result_check fuel r w2 = (Ok false, w3) ->
                    V3.NewUser fuel n c a w = (Raise AssertionError, w3))
        /\ (forall e w3, V3.result_check fuel r w2 = (Raise e, w3) ->
                         V3.NewUser fuel n c a w = (Raise e, w3))
        /\ (forall l entries,
              r = VRef l -> heap w2 !! l = Some (ODict entries) ->
              V3.NewUser fuel n c a w =
              if negb (nonempty entries) || has_keys entries
              then (Ok r, w2) else (Raise AssertionError, w2))).
Proof.
  split.
  - intros w r w' H.
    apply NewUser3_returns in H as (w0 & u & w1 & w2 & Hg & Hu & Hs & Hc).
    exists w0, u, w1, w2. repeat (split; [assumption|]).
    now apply result_check_true.
  - intros w w0 u w1 r w2 Hg Hu Hs.
    rewrite (NewUser3_after_save fuel _ _ _ _ _ _ _ _ _ Hg Hu Hs).
    unfold assert_, bind. repeat split.
    + intros w3 Hc. now rewrite Hc.
    + intros e w3 Hc. now rewrite Hc.
    + intros l entries -> Hl. rewrite (result_check_dict _ _ _ _ Hl).
      now destruct (negb (nonempty entries) || has_keys entries).
Qed.

Lemma NewUser3_returns_checked_results_witness :
  (exists w0 u w1 w2,
     V3.gate (VStr "alice") (VRef 1) (VRef 2) sample = (Ok tt, w0)
     /\ @User (answering (VRef 9)) (VStr "alice") (VRef 1) (VRef 2) w0 = (Ok u, w1)
     /\ @save_to_database (answering (VRef 9)) u w1 = (Ok (VRef 9), w2)
     /\ (truth (VRef 9) w2 = (Ok false, saved)
         \/ exists w3 w4 w5 w6,
              truth (VRef 9) w2 = (Ok true, w3)
              /\ V3.is_dict_like (VRef 9) w3 = (Ok true, w4)
              /\ py_in 0 "name" (VRef 9) w4 = (Ok true, w5)
              /\ py_in 0 "categories" (VRef 9) w5 = (Ok true, w6)
              /\ py_in 0 "attributes" (VRef 9) w6 = (Ok true, saved)))
  /\ @V3.NewUser (answering (VInt 5)) 0 (VStr "alice") (VRef 1) (VRef 2) sample
     = (Raise AssertionError, saved)
  /\ @V3.NewUser (answering (VRef 3)) 0 (VStr "alice") (VRef 1) (VRef 2) sample
     = (Raise ValueError, saved)
  /\ @V3.NewUser (answering (VRef 2)) 0 (VStr "alice") (VRef 1) (VRef 2) sample
     = (Raise AssertionError, saved).
Proof.
  pose (called := {| heap := sample_heap;
                     trace := [CallUser (VStr "alice") (VRef 1) (VRef 2)] |}).
  pose (u := VTuple [VStr "alice"; VRef 1; VRef 2]).
  split; [|split; [|split]].
  - apply (proj1 (NewUser3_returns_checked_results (answering (VRef 9)) 0
                    (VStr "alice") (VRef 1) (VRef 2)) sample (VRef 9) saved).
    reflexivity.
  - apply (proj1 (proj2 (NewUser3_returns_checked_results (answering (VInt 5)) 0
                    (VStr "alice") (VRef 1) (VRef 2))
                    sample sample u called (VInt 5) saved eq_refl eq_refl eq_refl)
             saved).
    reflexivity.
  - apply (proj1 (proj2 (proj2 (NewUser3_returns_checked_results (answering (VRef 3)) 0
                    (VStr "alice") (VRef 1) (VRef 2))
                    sample sample u called (VRef 3) saved eq_refl eq_refl eq_refl))
             ValueError saved).
    reflexivity.
  - apply (proj2 (proj2 (proj2 (NewUser3_returns_checked_results (answering (VRef 2)) 0
                    (VStr "alice") (VRef 1) (VRef 2))
                    sample sample u called (VRef 2) saved eq_refl eq_refl eq_refl))
             2%positive [(VStr "age", VInt 30)] eq_refl eq_refl).
Defined.

(** C7 as the specification words it fails when [save_to_database] returns
    a [Frame]: the frame is not an acceptable result, and [NewUser] raises
    [ValueError], not [AssertionError]. *)
Lemma NewUser3_frame_result_counterexample :
  @save_to_database (answering (VRef 3)) (VTuple [VStr "alice"; VRef 1; VRef 2])
     {| heap := sample_heap; trace := [CallUser (VStr "alice") (VRef 1) (VRef 2)] |}
  = (Ok (VRef 3), saved)
  /\ ~ acceptable 8 (VRef 3) saved
  /\ @V3.NewUser (answering (VRef 3)) 8 (VStr "alice") (VRef 1) (VRef 2) sample
     = (Raise ValueError, saved)
  /\ ~ (exists w',
          @V3.NewUser (answering (VRef 3)) 8 (VStr "alice") (VRef 1) (VRef 2) sample
          = (Raise AssertionError, w')).
Proof.
  split; [reflexivity|]. split; [|split; [reflexivity|]].
  - intros [[w' H]|(_ & [w' H] & _)]; vm_compute in H; discriminate.
  - intros [w' H]. vm_compute in H. discriminate.
Qed.

(** * Further properties *)

(** ** The record of calls *)

Section Keeps.
Context {A B : Type}.

Lemma keeps_ret (a : A) : keeps_trace (ret a).
Proof. intros w. reflexivity. Qed.

Lemma keeps_raise (e : exn) : keeps_trace (@raise A e).
Proof. intros w. reflexivity. Qed.

Lemma keeps_bind (c : M A) (k : A -> M B) :
  keeps_trace c -> (forall a, keeps_trace (k a)) -> keeps_trace (bind c k).
Proof.
  intros Hc Hk w. unfold bind. specialize (Hc w).
  destruct (c w) as [[a|e|] w1]; cbn in *; try exact Hc.
  now rewrite (Hk a w1).
Qed.

Lemma keeps_on_instance l c d (h : hook A) : keeps_trace (on_instance l c d h).
Proof. intros w. unfold on_instance. now destruct (h d). Qed.

End Keeps.

Lemma keeps_deref l : keeps_trace (deref l).
Proof. intros w. unfold deref. now destruct (heap w !! l). Qed.

Ltac keeps_step :=
  first
    [ apply keeps_ret | apply keeps_raise | apply keeps_deref
    | apply keeps_on_instance
    | apply keeps_bind; [|intros ?]
    | match goal with
      | |- keeps_trace (match ?x with _ => _ end) => destruct x
      | |- keeps_trace (if ?x then _ else _) => destruct x
      end
    | (intros ?; reflexivity) ].

Lemma keeps_truth v : keeps_trace (truth v).
Proof. unfold truth. repeat keeps_step. Qed.

Lemma keeps_getattr v name : keeps_trace (getattr v name).
Proof. unfold getattr, type_getattr. repeat keeps_step. Qed.

Lemma keeps_hasattr v name : keeps_trace (hasattr v name).
Proof.
  intros w. unfold hasattr. pose proof (keeps_getattr v name w) as H.
  destruct (getattr v name w) as [[[]|[]|] w1]; exact H.
Qed.

Lemma keeps_py_in fuel item v : keeps_trace (py_in fuel item v).
Proof.
  unfold py_in. repeat first [apply keeps_truth | keeps_step].
Qed.

Ltac keeps :=
  repeat first
    [ apply keeps_truth | apply keeps_hasattr | apply keeps_py_in | keeps_step ].

Lemma keeps_gate n c a : keeps_trace (V2.gate n c a).
Proof.
  unfold V2.gate, assert_, V2.is_iterable, V2.is_optional_dict, V2.is_dict_like,
    py_and, py_or, py_not.
  keeps.
Qed.

Lemma keeps_result_check fuel r : keeps_trace (V3.result_check fuel r).
Proof.
  unfold V3.result_check, V3.is_dict_like, py_and, py_or, py_not.
  keeps.
Qed.

Lemma external_spec c f w r w' :
  external c f w = (r, w') ->
  f (heap w) = (r, heap w') /\ trace w' = (trace w ++ [c])%list.
Proof.
  unfold external. destruct (f (heap w)) as [r0 h']. intros [= <- <-]. now split.
Qed.

Lemma gate_trace n c a w o w' : V2.gate n c a w = (o, w') -> trace w' = trace w.
Proof. intros H. pose proof (keeps_gate n c a w) as Hk. now rewrite H in Hk. Qed.

(** X1.  The gate of each variant leaves the record of collaborator calls
    untouched whatever its outcome, on every triple; when it raises,
    [NewUser] raises the same exception in the same world, so nothing was
    constructed or saved. *)
Theorem gate_calls_no_collaborator (ext : Collaborators) fuel n c a w :
  trace (snd (V1.gate n c a w)) = trace w
  /\ trace (snd (V2.gate n c a w)) = trace w
  /\ trace (snd (V3.gate n c a w)) = trace w
  /\ (forall e w',
        V2.gate n c a w = (Raise e, w') ->
        trace w' = trace w
        /\ V1.NewUser n c a w = (Raise e, w')
        /\ V2.NewUser n c a w = (Raise e, w')
        /\ V3.NewUser fuel n c a w = (Raise e, w')).
Proof.
  repeat split; try apply (keeps_gate n c a w).
  - now apply gate_trace in H.
  - now destruct (gate_fails _ _ _ _ _ _ H ext fuel) as (H1 & _).
  - now destruct (gate_fails _ _ _ _ _ _ H ext fuel) as (_ & H2 & _).
  - now destruct (gate_fails _ _ _ _ _ _ H ext fuel) as (_ & _ & H3).
Qed.

Lemma gate_calls_no_collaborator_witness :
  trace sample = trace sample
  /\ @V1.NewUser (answering (VBool true)) (VStr "alice") (VRef 3) (VRef 2) sample
     = (Raise ValueError, sample)
  /\ @V2.NewUser (answering (VBool true)) (VStr "alice") (VRef 3) (VRef 2) sample
     = (Raise ValueError, sample)
  /\ @V3.NewUser (answering (VBool true)) 0 (VStr "alice") (VRef 3) (VRef 2) sample
     = (Raise ValueError, sample).
Proof.
  apply (proj2 (proj2 (proj2 (gate_calls_no_collaborator (answering (VBool true)) 0
           (VStr "alice") (VRef 3) (VRef 2) sample))) ValueError sample).
  reflexivity.
Defined.

Section Calls.
Context {ext : Collaborators}.

Lemma construct_and_save_returns n c a w0 r w' :
  construct_and_save n c a w0 = (Ok r, w') ->
  exists u h1,
    User_impl n c a (heap w0) = (Ok u, h1)
    /\ save_impl u h1 = (Ok r, heap w')
    /\ trace w' = (trace w0 ++ [CallUser n c a; CallSave u])%list.
Proof.
  unfold construct_and_save. intros H.
  apply bind_ok in H as (u & w1 & Hu & Hs).
  apply external_spec in Hu as [Hu Htu]. apply external_spec in Hs as [Hs Hts].
  exists u, (heap w1). rewrite Hts, Htu, <- app_assoc. auto.
Qed.

End Calls.

(** X2.  When [NewUser] of the first or second variant returns [r], the
    gate passed, [User] was called once on the three arguments,
    [save_to_database] was called once, after it, on what [User] returned,
    and [r] is what [save_to_database] returned. *)
Theorem NewUser_returns_after_both_calls (ext : Collaborators) n c a w r w' :
  V1.NewUser n c a w = (Ok r, w') \/ V2.NewUser n c a w = (Ok r, w') ->
  exists w0 u h1,
    V2.gate n c a w = (Ok tt, w0)
    /\ User_impl n c a (heap w0) = (Ok u, h1)
    /\ save_impl u h1 = (Ok r, heap w')
    /\ trace w' = (trace w ++ [CallUser n c a; CallSave u])%list.
Proof.
  intros H.
  assert (H2 : (V2.gate n c a ;;; construct_and_save n c a) w = (Ok r, w')).
  { destruct H as [H|H]; [rewrite NewUser1_gate in H | rewrite NewUser2_gate in H];
      exact H. }
  apply bind_ok in H2 as ([] & w0 & Hg & Hcs).
  apply construct_and_save_returns in Hcs as (u & h1 & Hu & Hs & Ht).
  exists w0, u, h1. rewrite <- (gate_trace _ _ _ _ _ _ Hg). auto.
Qed.

Lemma NewUser_returns_after_both_calls_witness :
  exists w0 u h1,
    V2.gate (VStr "alice") (VRef 1) (VRef 2) sample = (Ok tt, w0)
    /\ @User_impl (answering (VBool true)) (VStr "alice") (VRef 1) (VRef 2) (heap w0)
       = (Ok u, h1)
    /\ @save_impl (answering (VBool true)) u h1 = (Ok (VBool true), heap saved)
    /\ trace saved
       = (trace sample ++ [CallUser (VStr "alice") (VRef 1) (VRef 2); CallSave u])%list.
Proof.
  apply (NewUser_returns_after_both_calls (answering (VBool true))
           (VStr "alice") (VRef 1) (VRef 2) sample (VBool true) saved).
  right. reflexivity.
Defined.

(** X3.  When the gate has passed and [User] raises, every variant of
    [NewUser] raises the same exception and [save_to_database] is never
    called; when [User] returns and [save_to_database] raises, every variant
    raises that exception after exactly the two calls. *)
Theorem collaborator_exceptions_propagate (ext : Collaborators) fuel n c a w w0 :
  V2.gate n c a w = (Ok tt, w0) ->
  (forall e h1,
     User_impl n c a (heap w0) = (Raise e, h1) ->
     let w' := {| heap := h1; trace := (trace w ++ [CallUser n c a])%list |} in
     V1.NewUser n c a w = (Raise e, w')
     /\ V2.NewUser n c a w = (Raise e, w')
     /\ V3.NewUser fuel n c a w = (Raise e, w'))
  /\ (forall u h1 e h2,
        User_impl n c a (heap w0) = (Ok u, h1) ->
        save_impl u h1 = (Raise e, h2) ->
        let w' := {| heap := h2; trace := (trace w ++ [CallUser n c a; CallSave u])%list |} in
        V1.NewUser n c a w = (Raise e, w')
        /\ V2.NewUser n c a w = (Raise e, w')
        /\ V3.NewUser fuel n c a w = (Raise e, w')).
Proof.
  intros Hg. pose proof (gate_trace _ _ _ _ _ _ Hg) as Ht.
  split.
  - intros e h1 Hu w'. subst w'.
    rewrite NewUser1_gate, NewUser2_gate, NewUser3_gate.
    change (V1.gate n c a) with (V2.gate n c a).
    change (V3.gate n c a) with (V2.gate n c a).
    unfold construct_and_save, bind, User, external. rewrite Hg, Hu, Ht. auto.
  - intros u h1 e h2 Hu Hs w'. subst w'.
    rewrite NewUser1_gate, NewUser2_gate, NewUser3_gate.
    change (V1.gate n c a) with (V2.gate n c a).
    change (V3.gate n c a) with (V2.gate n c a).
    unfold construct_and_save, bind, User, save_to_database, external.
    rewrite Hg, Hu. cbn. rewrite Hs, Ht, <- app_assoc. auto.
Qed.

Lemma collaborator_exceptions_propagate_witness :
  @V2.NewUser (refusing RuntimeError) (VStr "alice") (VRef 1) (VRef 2) sample
  = (Raise RuntimeError,
     {| heap := sample_heap;
        trace := [CallUser (VStr "alice") (VRef 1) (VRef 2)] |})
  /\ @V3.NewUser (refusing RuntimeError) 0 (VStr "alice") (VRef 1) (VRef 2) sample
     = (Raise RuntimeError,
        {| heap := sample_heap;
           trace := [CallUser (VStr "alice") (VRef 1) (VRef 2)] |}).
Proof.
  destruct (proj1 (collaborator_exceptions_propagate (refusing RuntimeError) 0
              (VStr "alice") (VRef 1) (VRef 2) sample sample eq_refl)
              RuntimeError sample_heap eq_refl) as (_ & H2 & H3).
  split; [exact H2 | exact H3].
Defined.

(** ** The gate on values of the modelled types *)

Lemma truth_builtin_value w v :
  is_builtin w v = true -> truth v w = (Ok (truth_value w v), w).
Proof.
  unfold is_builtin. destruct v as [| | | | |l]; cbn; try reflexivity.
  unfold bind, deref. destruct (heap w !! l) as [[]|]; try discriminate; reflexivity.
Qed.

Lemma is_iterable_builtin_value w v :
  is_builtin w v = true ->
  V2.is_iterable v w = (Ok (kind_is iterable_kind w v), w).
Proof.
  unfold is_builtin, kind_is. destruct (kind_of w v) as [k|] eqn:Hk; [|discriminate].
  intros _. unfold V2.is_iterable. rewrite (hasattr_builtin _ _ _ _ Hk).
  now destruct k.
Qed.

Lemma is_dict_like_builtin_value w v :
  is_builtin w v = true ->
  V2.is_dict_like v w = (Ok (kind_is dict_like_kind w v), w).
Proof.
  unfold is_builtin, kind_is. destruct (kind_of w v) as [k|] eqn:Hk; [|discriminate].
  intros _. rewrite (is_dict_like_builtin _ _ _ Hk). now destruct k.
Qed.

Lemma is_optional_dict_builtin_value w v :
  is_builtin w v = true ->
  V2.is_optional_dict v w
  = (Ok (negb (truth_value w v) || kind_is dict_like_kind w v), w).
Proof.
  intros Hb. rewrite (is_optional_dict_step _ _ _ _ (truth_builtin_value _ _ Hb)).
  destruct (truth_value w v); [|reflexivity]. now apply is_dict_like_builtin_value.
Qed.

(** X4.  On a triple of values each of which is [None], a [bool], [int],
    [str], [tuple], [list], [set], [dict] or generator, the gate decides by
    type and emptiness alone and leaves the world as it is: it passes
    exactly when the name is a non-empty [str], the categories are a
    non-empty [str], [tuple], [list], [set] or [dict] or a generator, and
    the attributes are falsy or a [list] or a [dict]; otherwise it raises
    [AssertionError].  A generator given as categories is not consumed.
    Values of other types are not covered. *)
Theorem gate_on_builtin_values n c a w :
  is_builtin w n = true -> is_builtin w c = true -> is_builtin w a = true ->
  V2.gate n c a w
  = (if gate_accepts w n c a then Ok tt else Raise AssertionError, w).
Proof.
  intros Hn Hc Ha.
  destruct (gate_quiet n c a w) as (tn & tc & ic & oa & Htn & Htc & Hic & Hoa & Hg);
    try (now apply builtin_quiet); try (now apply truth_builtin).
  rewrite (truth_builtin_value _ _ Hn) in Htn. injection Htn as <-.
  rewrite (truth_builtin_value _ _ Hc) in Htc. injection Htc as <-.
  rewrite (is_iterable_builtin_value _ _ Hc) in Hic. injection Hic as <-.
  rewrite (is_optional_dict_builtin_value _ _ Ha) in Hoa. injection Hoa as <-.
  rewrite Hg. unfold gate_accepts.
  now destruct (truth_value w n && truth_value w c && isinstance_str n
                && kind_is iterable_kind w c
                && (negb (truth_value w a) || kind_is dict_like_kind w a)).
Qed.

Lemma gate_on_builtin_values_witness :
  V2.gate (VStr "alice") (VStr "admin") (VRef 1) sample = (Ok tt, sample)
  /\ V2.gate (VStr "alice") (VRef 8) (VInt 0) sample = (Ok tt, sample)
  /\ V2.gate (VStr "alice") (VTuple []) VNone sample = (Raise AssertionError, sample)
  /\ V2.gate (VInt 7) (VRef 1) VNone sample = (Raise AssertionError, sample)
  /\ V2.gate (VStr "alice") (VRef 1) (VTuple [VInt 1]) sample
     = (Raise AssertionError, sample).
Proof.
  split; [|split; [|split; [|split]]].
  - apply (gate_on_builtin_values (VStr "alice") (VStr "admin") (VRef 1) sample);
      reflexivity.
  - apply (gate_on_builtin_values (VStr "alice") (VRef 8) (VInt 0) sample);
      reflexivity.
  - apply (gate_on_builtin_values (VStr "alice") (VTuple []) VNone sample);
      reflexivity.
  - apply (gate_on_builtin_values (VInt 7) (VRef 1) VNone sample); reflexivity.
  - apply (gate_on_builtin_values (VStr "alice") (VRef 1) (VTuple [VInt 1]) sample);
      reflexivity.
Defined.

(** ** The third variant against the second *)

Section Variants.
Context {ext : Collaborators}.

Lemma NewUser3_after_NewUser2 fuel n c a w :
  V3.NewUser fuel n c a w
  = (result <- V2.NewUser n c a ;;
     assert_ (V3.result_check fuel result) ;;; ret result) w.
Proof.
  unfold V3.NewUser, V2.NewUser, V3.result_check, bind.
  change V3.is_iterable with V2.is_iterable.
  change V3.is_optional_dict with V2.is_optional_dict.
  step_binds.
Qed.

End Variants.

(** X5.  The third variant is the second followed by the check of the
    result: whenever the second raises, the third raises the same exception
    in the same world, and whenever the third returns a value, the second
    returns that same value on the same input. *)
Theorem NewUser3_stricter_than_NewUser2 (ext : Collaborators) fuel n c a w :
  (forall e w', V2.NewUser n c a w = (Raise e, w') ->
                V3.NewUser fuel n c a w = (Raise e, w'))
  /\ (forall r w', V3.NewUser fuel n c a w = (Ok r, w') ->
                   exists w2, V2.NewUser n c a w = (Ok r, w2)
                              /\ V3.result_check fuel r w2 = (Ok true, w')).
Proof.
  split.
  - intros e w' H. rewrite NewUser3_after_NewUser2. unfold bind. now rewrite H.
  - intros r w' H. rewrite NewUser3_after_NewUser2 in H.
    apply bind_ok in H as (r' & w2 & H2 & H).
    apply bind_ok in H as ([] & w3 & Ha & [= <- <-]).
    apply assert_ok in Ha. now exists w2.
Qed.

Lemma NewUser3_stricter_than_NewUser2_witness :
  @V3.NewUser (answering (VBool true)) 0 (VStr "") (VRef 1) (VRef 2) sample
  = (Raise AssertionError, sample)
  /\ exists w2,
       @V2.NewUser (answering (VRef 9)) (VStr "alice") (VRef 1) (VRef 2) sample
       = (Ok (VRef 9), w2)
       /\ V3.result_check 0 (VRef 9) w2 = (Ok true, saved).
Proof.
  split.
  - apply (proj1 (NewUser3_stricter_than_NewUser2 (answering (VBool true)) 0
                    (VStr "") (VRef 1) (VRef 2) sample) AssertionError sample).
    reflexivity.
  - apply (proj2 (NewUser3_stricter_than_NewUser2 (answering (VRef 9)) 0
                    (VStr "alice") (VRef 1) (VRef 2) sample) (VRef 9) saved).
    reflexivity.
Defined.

(** ** The check of a result of a modelled type *)

Lemma result_check_list fuel l items w :
  heap w !! l = Some (OList items) ->
  V3.result_check fuel (VRef l) w =
  (Ok (negb (nonempty items)
       || existsb (str_eq "name") items
          && existsb (str_eq "categories") items
          && existsb (str_eq "attributes") items), w).
Proof.
  intros Hl.
  assert (Hk : kind_of w (VRef l) = Some KList) by (cbn; now rewrite Hl).
  assert (Hin : forall item, py_in fuel item (VRef l) w
                             = (Ok (existsb (str_eq item) items), w)).
  { intros item. cbn. unfold bind, deref. now rewrite Hl. }
  unfold V3.result_check.
  rewrite (py_or_not_step _ _ _ _ _ (truth_container _ _ _ Hl I)).
  destruct (nonempty items); [|reflexivity].
  change (V3.is_dict_like (VRef l)) with (V2.is_dict_like (VRef l)).
  rewrite (py_and_step _ _ _ _ _ (is_dict_like_builtin _ _ _ Hk)).
  cbn [type_attrs mem existsb String.eqb Ascii.eqb Bool.eqb andb orb negb].
  rewrite (py_and_step _ _ _ _ _ (Hin "name")).
  destruct (existsb (str_eq "name") items); [|reflexivity].
  rewrite (py_and_step _ _ _ _ _ (Hin "categories")).
  destruct (existsb (str_eq "categories") items); [|reflexivity].
  apply Hin.
Qed.

Lemma result_check_not_dict_like fuel r w k :
  kind_of w r = Some k -> dict_like_kind k = false ->
  V3.result_check fuel r w = (Ok (negb (truth_value w r)), w).
Proof.
  intros Hk Hd.
  assert (Hb : is_builtin w r = true) by (unfold is_builtin; now rewrite Hk).
  unfold V3.result_check.
  rewrite (py_or_not_step _ _ _ _ _ (truth_builtin_value _ _ Hb)).
  destruct (truth_value w r); [|reflexivity].
  change (V3.is_dict_like r) with (V2.is_dict_like r).
  rewrite (py_and_step _ _ _ _ _ (is_dict_like_builtin_value _ _ Hb)).
  unfold kind_is. now rewrite Hk, Hd.
Qed.

Lemma result_check_builtin fuel r w :
  is_builtin w r = true ->
  V3.result_check fuel r w = (Ok (result_accepted w r), w).
Proof.
  unfold is_builtin. destruct (kind_of w r) as [k|] eqn:Hk; [|discriminate].
  intros _. destruct (dict_like_kind k) eqn:Hd.
  - destruct r as [| | | | |l]; cbn in Hk;
      try (injection Hk as <-; discriminate).
    destruct (heap w !! l) as [[items|items|entries|pending|cl d]|] eqn:Hl;
      try discriminate; injection Hk as <-; try discriminate.
    + rewrite (result_check_list _ _ _ _ Hl).
      unfold result_accepted, truth_value, holds_names. now rewrite Hl.
    + rewrite (result_check_dict _ _ _ _ Hl).
      unfold result_accepted, truth_value, holds_names. now rewrite Hl.
  - rewrite (result_check_not_dict_like _ _ _ _ Hk Hd).
    unfold result_accepted.
    assert (Hh : holds_names w r = false).
    { destruct r as [| | | | |l]; try reflexivity. cbn in Hk |- *.
      destruct (heap w !! l) as [[]|]; try reflexivity;
        injection Hk as <-; discriminate. }
    rewrite Hh. now rewrite orb_false_r.
Qed.

(** X6.  When [save_to_database] returns [None], a [bool], [int], [str],
    [tuple], [list], [set], [dict] or generator, the third [NewUser]
    returns it exactly when it is falsy, or a [list] or [dict] holding
    ["name"], ["categories"] and ["attributes"]; for every other result of
    these nine types (among them [True], a non-empty [str] or [tuple], a
    generator, which is left unconsumed) it raises [AssertionError].  The
    store is left as [save_to_database] left it.  Results of other types
    are not covered. *)
Theorem NewUser3_on_builtin_result (ext : Collaborators) fuel n c a w w0 u w1 r w2 :
  V3.gate n c a w = (Ok tt, w0) ->
  User n c a w0 = (Ok u, w1) ->
  save_to_database u w1 = (Ok r, w2) ->
  is_builtin w2 r = true ->
  V3.NewUser fuel n c a w
  = (if result_accepted w2 r then Ok r else Raise AssertionError, w2).
Proof.
  intros Hg Hu Hs Hb.
  rewrite (NewUser3_after_save fuel _ _ _ _ _ _ _ _ _ Hg Hu Hs).
  unfold assert_, bind. rewrite (result_check_builtin _ _ _ Hb).
  now destruct (result_accepted w2 r).
Qed.

Lemma NewUser3_on_builtin_result_witness :
  @V3.NewUser (answering (VBool true)) 0 (VStr "alice") (VRef 1) (VRef 2) sample
  = (Raise AssertionError, saved)
  /\ @V3.NewUser (answering VNone) 0 (VStr "alice") (VRef 1) (VRef 2) sample
     = (Ok VNone, saved)
  /\ @V3.NewUser (answering (VRef 8)) 0 (VStr "alice") (VRef 1) (VRef 2) sample
     = (Raise AssertionError, saved)
  /\ @V3.NewUser (answering (VRef 10)) 0 (VStr "alice") (VRef 1) (VRef 2) listed
     = (Ok (VRef 10), {| heap := heap listed; trace := both_calls |}).
Proof.
  pose (u := VTuple [VStr "alice"; VRef 1; VRef 2]).
  pose (call1 := [CallUser (VStr "alice") (VRef 1) (VRef 2)]).
  split; [|split; [|split]].
  - apply (NewUser3_on_builtin_result (answering (VBool true)) 0
             (VStr "alice") (VRef 1) (VRef 2) sample sample u
             {| heap := sample_heap; trace := call1 |} (VBool true) saved);
      reflexivity.
  - apply (NewUser3_on_builtin_result (answering VNone) 0
             (VStr "alice") (VRef 1) (VRef 2) sample sample u
             {| heap := sample_heap; trace := call1 |} VNone saved);
      reflexivity.
  - apply (NewUser3_on_builtin_result (answering (VRef 8)) 0
             (VStr "alice") (VRef 1) (VRef 2) sample sample u
             {| heap := sample_heap; trace := call1 |} (VRef 8) saved);
      reflexivity.
  - apply (NewUser3_on_builtin_result (answering (VRef 10)) 0
             (VStr "alice") (VRef 1) (VRef 2) listed listed u
             {| heap := heap listed; trace := call1 |} (VRef 10)
             {| heap := heap listed; trace := both_calls |});
      reflexivity.
Defined.

(** X7.  In the third variant the result is checked after it was saved:
    once [User] and [save_to_database] have returned, whatever the check
    does, [NewUser] ends with both calls made, once each and in that order;
    in particular an [AssertionError] from the check comes after the call
    of [save_to_database]. *)
Theorem NewUser3_checks_after_saving (ext : Collaborators) fuel n c a w w0 u w1 r w2 :
  V3.gate n c a w = (Ok tt, w0) ->
  User n c a w0 = (Ok u, w1) ->
  save_to_database u w1 = (Ok r, w2) ->
  trace (snd (V3.NewUser fuel n c a w))
  = (trace w ++ [CallUser n c a; CallSave u])%list
  /\ (forall w3, V3.result_check fuel r w2 = (Ok false, w3) ->
                 V3.NewUser fuel n c a w = (Raise AssertionError, w3)
                 /\ trace w3 = (trace w ++ [CallUser n c a; CallSave u])%list).
Proof.
  intros Hg Hu Hs.
  assert (Ht2 : trace w2 = (trace w ++ [CallUser n c a; CallSave u])%list).
  { apply external_spec in Hu as [_ Htu]. apply external_spec in Hs as [_ Hts].
    rewrite Hts, Htu, <- app_assoc.
    now rewrite (gate_trace n c a w _ _ Hg). }
  rewrite (NewUser3_after_save fuel _ _ _ _ _ _ _ _ _ Hg Hu Hs).
  assert (Hk : keeps_trace (assert_ (V3.result_check fuel r) ;;; ret r)).
  { unfold assert_. apply keeps_bind; [|intros; apply keeps_ret].
    apply keeps_bind; [apply keeps_result_check|].
    intros []; [apply keeps_ret | apply keeps_raise]. }
  split.
  - now rewrite (Hk w2).
  - intros w3 Hc. pose proof (keeps_result_check fuel r w2) as Hk3.
    rewrite Hc in Hk3. cbn in Hk3.
    unfold assert_, bind. rewrite Hc. split; [reflexivity | congruence].
Qed.

Lemma NewUser3_checks_after_saving_witness :
  trace (snd (@V3.NewUser (answering (VRef 2)) 0 (VStr "alice") (VRef 1) (VRef 2) sample))
  = (trace sample ++ both_calls)%list
  /\ @V3.NewUser (answering (VRef 2)) 0 (VStr "alice") (VRef 1) (VRef 2) sample
     = (Raise AssertionError, saved)
  /\ trace saved = (trace sample ++ both_calls)%list.
Proof.
  pose (u := VTuple [VStr "alice"; VRef 1; VRef 2]).
  pose (call1 := [CallUser (VStr "alice") (VRef 1) (VRef 2)]).
  destruct (NewUser3_checks_after_saving (answering (VRef 2)) 0
              (VStr "alice") (VRef 1) (VRef 2) sample sample u
              {| heap := sample_heap; trace := call1 |} (VRef 2) saved
              eq_refl eq_refl eq_refl) as [H1 H2].
  split; [exact H1 | exact (H2 saved eq_refl)].
Defined.

(** X8.  The gate stops at its first failing check, on any values: a name
    that tests false is rejected with [AssertionError] before the
    categories or the attributes are looked at, and a truthy name that is
    no [str] is rejected, once the categories have tested true, before any
    attribute is looked up.  In both cases no collaborator is called. *)
Theorem gate_stops_at_first_failure (ext : Collaborators) fuel n c a w :
  (forall w1,
     truth n w = (Ok false, w1) ->
     V1.NewUser n c a w = (Raise AssertionError, w1)
     /\ V2.NewUser n c a w = (Raise AssertionError, w1)
     /\ V3.NewUser fuel n c a w = (Raise AssertionError, w1))
  /\ (forall w1 w2,
        truth n w = (Ok true, w1) -> truth c w1 = (Ok true, w2) ->
        isinstance_str n = false ->
        V1.NewUser n c a w = (Raise AssertionError, w2)
        /\ V2.NewUser n c a w = (Raise AssertionError, w2)
        /\ V3.NewUser fuel n c a w = (Raise AssertionError, w2)).
Proof.
  split.
  - intros w1 Hn. apply gate_fails.
    unfold V2.gate, assert_, py_and.
    unfold bind at 1. unfold bind at 1. unfold bind at 1. now rewrite Hn.
  - intros w1 w2 Hn Hc Hs. apply gate_fails.
    unfold V2.gate, assert_, py_and.
    unfold bind at 1. unfold bind at 1. unfold bind at 1. rewrite Hn, Hc.
    unfold bind at 1. unfold bind at 1. cbn. now rewrite Hs.
Qed.

Lemma gate_stops_at_first_failure_witness :
  @V2.NewUser (answering (VBool true)) VNone (VRef 4) (VRef 3) sample
  = (Raise AssertionError, sample)
  /\ @V2.NewUser (answering (VBool true)) (VInt 7) (VRef 1) (VRef 3) sample
     = (Raise AssertionError, sample).
Proof.
  split.
  - apply (proj1 (gate_stops_at_first_failure (answering (VBool true)) 0
                    VNone (VRef 4) (VRef 3) sample) sample eq_refl).
  - apply (proj2 (gate_stops_at_first_failure (answering (VBool true)) 0
                    (VInt 7) (VRef 1) (VRef 3) sample) sample sample
             eq_refl eq_refl eq_refl).
Defined.
